(** * EOH: the Evolution of Hamiltonian algorithm of qiskit-aqua

    Shallow embedding of [qiskit/aqua/algorithms/many_sample/eoh/eoh.py].

    Python objects handed to [EOH] (operators, the initial state, the quantum
    instance, circuits and results) are references, modelled as [nat]
    handles.  Their behaviour is duck-typed in the source; here it is the
    record [collab] of their methods.  A method may read and change the
    collaborators' heap [heap] (circuit objects and the collaborators' own
    state) and may raise.  A method that does not exist on the object (for
    instance on [None]) is a method that raises [PyError "AttributeError"].

    The component's own code runs in the state and error monad [M] over
    [world]: the collaborators' heap, the trace of the calls the component
    makes into its collaborators, and the result dictionaries owned by [EOH]
    instances (they are never handed to a collaborator). *)

From stdpp Require Import base gmap strings list pretty.
From Stdlib Require Import ZArith.

Open Scope Z_scope.

(** ** Exceptions and results *)

Inductive exn : Type :=
  | AquaError (msg : string)
  | PyError (cls : string) (msg : string).

Inductive result (A : Type) : Type :=
  | Ok (a : A)
  | Err (e : exn).
Arguments Ok {A} a.
Arguments Err {A} e.

(** ** The collaborators' heap *)

Record heap : Type := mkHeap {
  h_circs : gmap nat (list nat);  (* QuantumCircuit objects: their gates *)
  h_aux : nat                     (* whatever else the collaborators keep *)
}.

(** A collaborator method: it may read and change the heap, and may raise. *)
Definition CM (A : Type) : Type := heap -> result A * heap.

(** The gates of the circuit object [r] ([r] always names a live object in
    a run of the program; a dangling handle reads as the empty circuit). *)
Definition circuit_data (h : heap) (r : nat) : list nat :=
  default [] (h_circs h !! r).

(** [QuantumRegister(size, name=...)]. *)
Record QuantumRegister : Type := mkQuantumRegister {
  qr_size : nat;
  qr_name : string
}.

(** The duck-typed interfaces [EOH] relies on. *)
Record collab : Type := mkCollab {
  (* operator is already a WeightedPauliOperator *)
  is_weighted_pauli : nat -> bool;
  (* op_converter's conversion of any other operator *)
  convert_operator : nat -> CM nat;
  (* operator.num_qubits *)
  op_num_qubits : nat -> CM nat;
  (* initial_state.construct_circuit(mode, register) *)
  state_construct_circuit : nat -> string -> QuantumRegister -> CM nat;
  (* evo_operator.evolve(evo_time=, num_time_slices=, quantum_registers=,
     expansion_mode=, expansion_order=) *)
  op_evolve : nat -> Z -> Z -> QuantumRegister -> string -> Z -> CM nat;
  (* operator.construct_evaluation_circuit(wave_function=, statevector_mode=) *)
  op_construct_evaluation_circuit : nat -> nat -> bool -> CM nat;
  (* the backend's declared mode of a quantum instance *)
  backend_is_statevector : nat -> bool;
  (* quantum_instance.execute(circuits) *)
  qi_execute : nat -> nat -> CM nat;
  (* operator.evaluate_with_result(result=, statevector_mode=) *)
  op_evaluate_with_result : nat -> nat -> bool -> CM (Z * Z)
}.

(** Modelled from the spec: [op_converter.to_weighted_pauli_operator]
    (qiskit/aqua/operators/op_converter.py, not under src/).  The spec: the
    conversion to the canonical form is idempotent, converting an operator
    already in canonical form is a no-op and does not raise; any other
    operator goes through the conversion routine of its own kind. *)
Definition to_weighted_pauli_operator (C : collab) (operator : nat) : CM nat :=
  fun h => if is_weighted_pauli C operator then (Ok operator, h)
           else convert_operator C operator h.

(** Modelled from the spec: [QuantumInstance.is_statevector]
    (qiskit/aqua/quantum_instance.py, not under src/).  The spec: the
    backend's declared statevector or sampling mode, an attribute of the
    backend held for the lifetime of the experiment. *)
Definition is_statevector (C : collab) (quantum_instance : nat) : bool :=
  backend_is_statevector C quantum_instance.

(** ** The component's world and monad *)

(** The calls [EOH] makes into its collaborators, with their arguments, and
    the exceptions they raise. *)
Inductive event : Type :=
  | EConvert (operator : nat)
  | ENumQubits (operator : nat)
  | EInitialState (initial_state : nat) (mode : string) (qr : QuantumRegister)
  | EEvolve (evo_operator : nat) (evo_time num_time_slices : Z)
      (qr : QuantumRegister) (expansion_mode : string) (expansion_order : Z)
  | EEvalCircuit (operator wave_function : nat) (statevector_mode : bool)
  | EExecute (quantum_instance circuit : nat)
  | EEvaluate (operator res : nat) (statevector_mode : bool)
  | ERaise (e : exn).

Record world : Type := mkWorld {
  w_heap : heap;
  w_trace : list event;
  w_dicts : gmap nat (gmap string Z);  (* dict objects owned by EOH *)
  w_next_dict : nat
}.

Definition M (A : Type) : Type := world -> result A * world.

Definition ret {A} (a : A) : M A := fun w => (Ok a, w).

Definition bind {A B} (m : M A) (k : A -> M B) : M B :=
  fun w => match m w with
           | (Ok a, w') => k a w'
           | (Err e, w') => (Err e, w')
           end.

Notation "x <-- m ; k" := (bind m (fun x => k))
  (at level 100, m at next level, right associativity).
Notation "m ;;; k" := (bind m (fun _ => k))
  (at level 100, right associativity).

(** A pure check that may raise. *)
Definition lift_result {A} (r : result A) : M A := fun w => (r, w).

(** A call into a collaborator: recorded in the trace, run on the heap;
    an exception it raises is recorded and propagates. *)
Definition call {A} (ev : event) (m : CM A) : M A :=
  fun w =>
    match m (w_heap w) with
    | (Ok a, h') =>
        (Ok a, mkWorld h' (w_trace w ++ [ev]) (w_dicts w) (w_next_dict w))
    | (Err e, h') =>
        (Err e, mkWorld h' (w_trace w ++ [ev; ERaise e]) (w_dicts w)
                  (w_next_dict w))
    end.

(** [{}]: a new, empty dict object. *)
Definition new_dict : M nat :=
  fun w => (Ok (w_next_dict w),
            mkWorld (w_heap w) (w_trace w)
              (<[w_next_dict w := ∅]> (w_dicts w)) (S (w_next_dict w))).

(** [qc += frag]: [QuantumCircuit.__iadd__] extends [qc] in place with the
    gates of [frag]. *)
Definition heap_iadd (h : heap) (qc frag : nat) : heap :=
  mkHeap (<[qc := circuit_data h qc ++ circuit_data h frag]> (h_circs h))
    (h_aux h).

Definition circuit_iadd (qc frag : nat) : M unit :=
  fun w =>
    (Ok tt, mkWorld (heap_iadd (w_heap w) qc frag) (w_trace w) (w_dicts w)
              (w_next_dict w)).

(** [self._ret['avg'], self._ret['std_dev'] = (avg, std_dev)]. *)
Definition store_ret (r : nat) (avg std_dev : Z) : M unit :=
  fun w =>
    let d := default ∅ (w_dicts w !! r) in
    (Ok tt,
     mkWorld (w_heap w) (w_trace w)
       (<[r := <["std_dev" := std_dev]> (<["avg" := avg]> d)]> (w_dicts w))
       (w_next_dict w)).

(** ** The class [EOH] *)

(** The attributes of an [EOH] instance.  [super().__init__()] only sets the
    base class's own attributes ([_quantum_instance] and the like) and raises
    nothing; the quantum instance is passed to [_run] directly, as
    [QuantumAlgorithm.run] sets it just before calling [_run]. *)
Record EOH : Type := mkEOH {
  _operator : nat;
  _initial_state : nat;
  _evo_operator : nat;
  _evo_time : Z;
  _num_time_slices : Z;
  _expansion_mode : string;
  _expansion_order : Z;
  _ret : nat
}.

(** [EOH._validate_eoh]. *)
Definition _validate_eoh (evo_time num_time_slices : Z) (expansion_mode : string)
    (expansion_order : Z) : result unit :=
  if evo_time <? 0 then
    Err (AquaError ("Evo time value " +:+ pretty evo_time +:+
                    ". Minimum value allowed is 0"))
  else if num_time_slices <? 0 then
    Err (AquaError ("Num time slices value " +:+ pretty num_time_slices +:+
                    ". Minimum value allowed is 0"))
  else if negb (bool_decide (expansion_mode ∈ ["trotter"; "suzuki"]%string)) then
    Err (AquaError ("Expansion Mode value '" +:+ expansion_mode +:+
                    "'. Values allowed are 'trotter', 'suzuki'"))
  else if expansion_order <? 1 then
    Err (AquaError ("Expansion order value " +:+ pretty expansion_order +:+
                    ". Minimum value allowed is 1"))
  else Ok tt.

(** [EOH.__init__]. *)
Definition __init__ (C : collab) (operator initial_state evo_operator : nat)
    (evo_time num_time_slices : Z) (expansion_mode : string)
    (expansion_order : Z) : M EOH :=
  lift_result (_validate_eoh evo_time num_time_slices expansion_mode
                 expansion_order) ;;;
  op <-- call (EConvert operator) (to_weighted_pauli_operator C operator) ;
  evo <-- call (EConvert evo_operator)
            (to_weighted_pauli_operator C evo_operator) ;
  r <-- new_dict ;
  ret (mkEOH op initial_state evo evo_time num_time_slices expansion_mode
         expansion_order r).

(** [EOH.construct_circuit]. *)
Definition construct_circuit (C : collab) (self : EOH) : M nat :=
  n <-- call (ENumQubits (_operator self)) (op_num_qubits C (_operator self)) ;
  let quantum_registers := mkQuantumRegister n "q" in
  qc <-- call (EInitialState (_initial_state self) "circuit" quantum_registers)
           (state_construct_circuit C (_initial_state self) "circuit"
              quantum_registers) ;
  frag <-- call (EEvolve (_evo_operator self) (_evo_time self)
                   (_num_time_slices self) quantum_registers
                   (_expansion_mode self) (_expansion_order self))
             (op_evolve C (_evo_operator self) (_evo_time self)
                (_num_time_slices self) quantum_registers
                (_expansion_mode self) (_expansion_order self)) ;
  circuit_iadd qc frag ;;;
  ret qc.

(** The right-hand side of the assignment in [EOH._run]: build, wrap,
    execute, evaluate. *)
Definition _run_evaluate (C : collab) (quantum_instance : nat) (self : EOH)
    : M (Z * Z) :=
  qc <-- construct_circuit C self ;
  qc_with_op <-- call (EEvalCircuit (_operator self) qc
                        (is_statevector C quantum_instance))
                   (op_construct_evaluation_circuit C (_operator self) qc
                      (is_statevector C quantum_instance)) ;
  res <-- call (EExecute quantum_instance qc_with_op)
            (qi_execute C quantum_instance qc_with_op) ;
  call (EEvaluate (_operator self) res (is_statevector C quantum_instance))
    (op_evaluate_with_result C (_operator self) res
       (is_statevector C quantum_instance)).

(** [EOH._run]: returns the dict object [self._ret]. *)
Definition _run (C : collab) (quantum_instance : nat) (self : EOH) : M nat :=
  p <-- _run_evaluate C quantum_instance self ;
  store_ret (_ret self) (fst p) (snd p) ;;;
  ret (_ret self).

(** ** Concrete collaborators, for testing the embedding *)

(** Allocate a new circuit object with the given gates; [h_aux] counts the
    allocations. *)
Definition alloc_circuit (gates : list nat) : CM nat :=
  fun h => let r := fresh (dom (h_circs h)) in
           (Ok r, mkHeap (<[r := gates]> (h_circs h)) (S (h_aux h))).

(** Operators below 100 are WeightedPauliOperators, operator [n] has [n]
    qubits; every call of a circuit-producing method returns a new object;
    quantum instance 1 has a statevector backend. *)
Definition demo_collab : collab := {|
  is_weighted_pauli := fun op => Nat.ltb op 100;
  convert_operator := fun op h => (Ok (op - 100)%nat, h);
  op_num_qubits := fun op h => (Ok op, h);
  state_construct_circuit := fun _ _ _ => alloc_circuit [];
  op_evolve := fun _ t _ _ _ _ => alloc_circuit [Z.to_nat t];
  op_construct_evaluation_circuit := fun _ wf sv h =>
    alloc_circuit (circuit_data h wf ++ [if sv then 50 else 60]%nat) h;
  backend_is_statevector := fun qi => Nat.eqb qi 1;
  qi_execute := fun _ c h => (Ok (length (circuit_data h c)), h);
  op_evaluate_with_result := fun _ res _ h =>
    (Ok (Z.of_nat (h_aux h), Z.of_nat res), h)
|}.

(** As [demo_collab], but the initial state hands out its one circuit
    object, handle 0, on every call. *)
Definition shared_state_collab : collab := {|
  is_weighted_pauli := is_weighted_pauli demo_collab;
  convert_operator := convert_operator demo_collab;
  op_num_qubits := op_num_qubits demo_collab;
  state_construct_circuit := fun _ _ _ h => (Ok 0%nat, h);
  op_evolve := op_evolve demo_collab;
  op_construct_evaluation_circuit := op_construct_evaluation_circuit demo_collab;
  backend_is_statevector := backend_is_statevector demo_collab;
  qi_execute := qi_execute demo_collab;
  op_evaluate_with_result := op_evaluate_with_result demo_collab
|}.

(** The heap holds the initial state's circuit object 0, with no gates. *)
Definition world0 : world :=
  mkWorld (mkHeap (<[0%nat := []]> ∅) 1) [] ∅ 0.

Definition allowed_modes : list string := ["trotter"; "suzuki"]%string.

(** Whether the text [field] occurs in [msg]. *)
Definition mentions (msg field : string) : bool :=
  match String.index 0 field msg with Some _ => true | None => false end.

(** A circuit-producing method that always returns a new object holding
    [gates] and leaves the other circuit objects alone. *)
Definition fresh_circuit (m : CM nat) (gates : list nat) : Prop :=
  forall h, exists r h', m h = (Ok r, h') /\ h_circs h !! r = None /\
                         h_circs h' = <[r := gates]> (h_circs h).

(** The instance built with the default parameters over operator 1 and
    initial state 0. *)
Definition demo_eoh : EOH := mkEOH 1 0 1 1 1 "trotter" 1 0.

(** Whether an event that selects a mode selects [sv]. *)
Definition mode_ok (sv : bool) (ev : event) : bool :=
  match ev with
  | EEvalCircuit _ _ b | EEvaluate _ _ b => Bool.eqb b sv
  | _ => true
  end.

(** A call into a collaborator, not an exception. *)
Definition is_call (ev : event) : Prop :=
  match ev with ERaise _ => False | _ => True end.

(** The events end with a call followed by the exception [e] it raised, and
    no exception was raised before. *)
Fixpoint ends_in_collaborator_raise (evs : list event) (e : exn) : Prop :=
  match evs with
  | [] => False
  | [ev; ERaise e'] => is_call ev /\ e' = e
  | ERaise _ :: _ => False
  | _ :: rest => ends_in_collaborator_raise rest e
  end.

(** The result dict [r] holds at most the keys ['avg'] and ['std_dev']. *)
Definition ret_keys_ok (dicts : gmap nat (gmap string Z)) (r : nat) : Prop :=
  forall d k v, dicts !! r = Some d -> d !! k = Some v ->
                k = "avg"%string \/ k = "std_dev"%string.

(** [C] with every operator's [num_qubits] answered by [f]. *)
Definition with_num_qubits (C : collab) (f : nat -> CM nat) : collab := {|
  is_weighted_pauli := is_weighted_pauli C;
  convert_operator := convert_operator C;
  op_num_qubits := f;
  state_construct_circuit := state_construct_circuit C;
  op_evolve := op_evolve C;
  op_construct_evaluation_circuit := op_construct_evaluation_circuit C;
  backend_is_statevector := backend_is_statevector C;
  qi_execute := qi_execute C;
  op_evaluate_with_result := op_evaluate_with_result C
|}.

(** The instance with observable operator 1 (one qubit) and evolution
    operator 2 (two qubits, in [demo_collab]). *)
Definition mismatched_eoh : EOH := mkEOH 1 0 2 1 1 "trotter" 1 0.

(** Two collaborator sets that convert operators alike. *)
Definition agree_on_conversion (C C' : collab) : Prop :=
  is_weighted_pauli C = is_weighted_pauli C' /\
  convert_operator C = convert_operator C'.

Definition none_attribute_error : exn :=
  PyError "AttributeError" "'NoneType' object has no attribute 'construct_circuit'".

(** As [demo_collab], with [None] passed as the initial state. *)
Definition none_state_collab : collab := {|
  is_weighted_pauli := is_weighted_pauli demo_collab;
  convert_operator := convert_operator demo_collab;
  op_num_qubits := op_num_qubits demo_collab;
  state_construct_circuit := fun _ _ _ h => (Err none_attribute_error, h);
  op_evolve := op_evolve demo_collab;
  op_construct_evaluation_circuit := op_construct_evaluation_circuit demo_collab;
  backend_is_statevector := backend_is_statevector demo_collab;
  qi_execute := qi_execute demo_collab;
  op_evaluate_with_result := op_evaluate_with_result demo_collab
|}.

(** As [demo_collab], but [evolve] raises. *)
Definition evolve_error_collab : collab := {|
  is_weighted_pauli := is_weighted_pauli demo_collab;
  convert_operator := convert_operator demo_collab;
  op_num_qubits := op_num_qubits demo_collab;
  state_construct_circuit := state_construct_circuit demo_collab;
  op_evolve := fun _ _ _ _ _ _ h => (Err (AquaError "evolve failed"), h);
  op_construct_evaluation_circuit := op_construct_evaluation_circuit demo_collab;
  backend_is_statevector := backend_is_statevector demo_collab;
  qi_execute := qi_execute demo_collab;
  op_evaluate_with_result := op_evaluate_with_result demo_collab
|}.

Example validate_defaults : _validate_eoh 1 1 "trotter" 1 = Ok tt.
Proof. reflexivity. Qed.

Example validate_boundary : _validate_eoh 0 0 "suzuki" 1 = Ok tt.
Proof. reflexivity. Qed.

Example validate_order0 :
  _validate_eoh 1 1 "trotter" 0 =
  Err (AquaError "Expansion order value 0. Minimum value allowed is 1").
Proof. reflexivity. Qed.

Example validate_first_failing :
  _validate_eoh (-2) (-1) "x" 0 =
  Err (AquaError "Evo time value -2. Minimum value allowed is 0").
Proof. reflexivity. Qed.

Example run_demo :
  match __init__ demo_collab 2 0 103 5 1 "trotter" 1 world0 with
  | (Ok self, w1) =>
      match _run demo_collab 1 self w1 with
      | (Ok r, w2) => w_dicts w2 !! r = Some (<["std_dev" := 2]> (<["avg" := 4]> ∅))
                      /\ circuit_data (w_heap w2) 1 = [5%nat]
      | _ => False
      end
  | _ => False
  end.
Proof. vm_compute. split; reflexivity. Qed.

(** ** Proof tools *)

(** Destruct the innermost [match] scrutinee of the goal, with an equation. *)
Ltac case_inner :=
  match goal with
  | |- context [match ?x with _ => _ end] =>
      lazymatch x with
      | context [match _ with _ => _ end] => fail
      | _ => let E := fresh "E" in destruct x eqn:E
      end
  end.

(** The same in a hypothesis. *)
Ltac case_inner_in H :=
  match type of H with
  | context [match ?x with _ => _ end] =>
      lazymatch x with
      | context [match _ with _ => _ end] => fail
      | _ => let E := fresh "E" in destruct x eqn:E
      end
  end.

Ltac unfold_eoh :=
  unfold __init__, _run, _run_evaluate, construct_circuit, bind, ret, call,
    lift_result, new_dict, circuit_iadd, store_ret in *; simpl in *.

Lemma validate_eoh_cases t s mode o :
  (_validate_eoh t s mode o = Ok tt /\
     0 <= t /\ 0 <= s /\ mode ∈ allowed_modes /\ 1 <= o)
  \/ (exists e, _validate_eoh t s mode o = Err e /\
       (t < 0 \/ s < 0 \/ mode ∉ allowed_modes \/ o < 1)).
Proof.
  unfold _validate_eoh, allowed_modes.
  destruct (Z.ltb_spec t 0); [right; eexists; split; [reflexivity | lia] |].
  destruct (Z.ltb_spec s 0); [right; eexists; split; [reflexivity | lia] |].
  case_bool_decide; simpl; [| right; eexists; split; [reflexivity | tauto]].
  destruct (Z.ltb_spec o 1); [right; eexists; split; [reflexivity | lia] |].
  left; repeat split; auto; lia.
Qed.

Lemma validate_eoh_ok t s mode o :
  0 <= t -> 0 <= s -> mode ∈ allowed_modes -> 1 <= o ->
  _validate_eoh t s mode o = Ok tt.
Proof.
  intros Ht Hs Hm Ho.
  destruct (validate_eoh_cases t s mode o) as [[H _] | [e [_ Hbad]]]; [done |].
  exfalso; destruct Hbad as [? | [? | [? | ?]]]; [lia | lia | done | lia].
Qed.

(** [__init__] stops at a failed check with the world untouched. *)
Lemma init_validation_error C operator initial_state evo_operator
    evo_time num_time_slices expansion_mode expansion_order w e :
  _validate_eoh evo_time num_time_slices expansion_mode expansion_order = Err e ->
  __init__ C operator initial_state evo_operator evo_time num_time_slices
    expansion_mode expansion_order w = (Err e, w).
Proof. intros H. unfold __init__, bind, lift_result. by rewrite H. Qed.

(** C1: construction fails in validation exactly when [evo_time < 0],
    [num_time_slices < 0], [expansion_mode] is neither ["trotter"] nor
    ["suzuki"], or [expansion_order < 1]; such a failure is what [__init__]
    raises; with all four parameters valid (boundaries [num_time_slices = 0]
    and [expansion_order = 1] included) and both operator conversions
    succeeding, construction succeeds. *)
Theorem C1_construction_validation (C : collab)
    (operator initial_state evo_operator : nat)
    (evo_time num_time_slices : Z) (expansion_mode : string)
    (expansion_order : Z) (w : world) :
  ((exists e, _validate_eoh evo_time num_time_slices expansion_mode
                expansion_order = Err e) <->
   (evo_time < 0 \/ num_time_slices < 0 \/
    expansion_mode ∉ ["trotter"; "suzuki"]%string \/ expansion_order < 1))
  /\ (forall e, _validate_eoh evo_time num_time_slices expansion_mode
                  expansion_order = Err e ->
       __init__ C operator initial_state evo_operator evo_time num_time_slices
         expansion_mode expansion_order w = (Err e, w))
  /\ (0 <= evo_time -> 0 <= num_time_slices ->
      expansion_mode ∈ ["trotter"; "suzuki"]%string -> 1 <= expansion_order ->
      (forall h, exists r h', to_weighted_pauli_operator C operator h = (Ok r, h')) ->
      (forall h, exists r h',
         to_weighted_pauli_operator C evo_operator h = (Ok r, h')) ->
      exists self w',
        __init__ C operator initial_state evo_operator evo_time num_time_slices
          expansion_mode expansion_order w = (Ok self, w')).
Proof.
  split; [| split].
  - destruct (validate_eoh_cases evo_time num_time_slices expansion_mode
                expansion_order) as [[Hok [? [? [Hm ?]]]] | [e [He Hbad]]].
    + rewrite Hok. split; [intros [e He]; discriminate |].
      unfold allowed_modes in Hm.
      intros [? | [? | [? | ?]]]; [lia | lia | done | lia].
    + split; [intros _; exact Hbad | eauto].
  - intros e. apply init_validation_error.
  - intros Ht Hs Hm Ho Hop Hevo.
    unfold __init__, bind, lift_result, call, new_dict, ret.
    rewrite validate_eoh_ok by assumption.
    destruct (Hop (w_heap w)) as [r [h' Hr]]. rewrite Hr.
    cbn [w_heap w_trace w_dicts w_next_dict].
    destruct (Hevo h') as [r2 [h2 Hr2]]. rewrite Hr2.
    eauto.
Qed.

(** C5 (counterexample): a validation error is a plain [AquaError] whose
    message does not carry the parameter's name: rejecting [evo_time = -1]
    raises a message without ["evo_time"], rejecting the mode ["qdrift"] one
    without ["expansion_mode"]. *)
Lemma C5_error_message_lacks_field_name :
  __init__ demo_collab 1 0 1 (-1) 1 "trotter" 1 world0 =
    (Err (AquaError "Evo time value -1. Minimum value allowed is 0"), world0)
  /\ mentions "Evo time value -1. Minimum value allowed is 0" "evo_time" = false
  /\ __init__ demo_collab 1 0 1 1 1 "qdrift" 1 world0 =
    (Err (AquaError
            "Expansion Mode value 'qdrift'. Values allowed are 'trotter', 'suzuki'"),
     world0)
  /\ mentions "Expansion Mode value 'qdrift'. Values allowed are 'trotter', 'suzuki'"
       "expansion_mode" = false.
Proof. vm_compute. repeat split. Qed.

(** C5 (amended): the four checks run first, in the order [evo_time],
    [num_time_slices], [expansion_mode], [expansion_order]; the first failing
    one decides the error, an [AquaError] whose message names the parameter
    in words and shows the rejected value; when a check fails, [__init__]
    leaves the world as it was: no collaborator called, no attribute set, no
    result dict created. *)
Theorem C5_validation_order_and_messages (C : collab)
    (operator initial_state evo_operator : nat)
    (evo_time num_time_slices : Z) (expansion_mode : string)
    (expansion_order : Z) (w : world) :
  let init := __init__ C operator initial_state evo_operator evo_time
                num_time_slices expansion_mode expansion_order w in
  (evo_time < 0 ->
   init = (Err (AquaError ("Evo time value " +:+ pretty evo_time +:+
                           ". Minimum value allowed is 0")), w))
  /\ (0 <= evo_time -> num_time_slices < 0 ->
      init = (Err (AquaError ("Num time slices value " +:+
                              pretty num_time_slices +:+
                              ". Minimum value allowed is 0")), w))
  /\ (0 <= evo_time -> 0 <= num_time_slices ->
      expansion_mode ∉ ["trotter"; "suzuki"]%string ->
      init = (Err (AquaError ("Expansion Mode value '" +:+ expansion_mode +:+
                              "'. Values allowed are 'trotter', 'suzuki'")), w))
  /\ (0 <= evo_time -> 0 <= num_time_slices ->
      expansion_mode ∈ ["trotter"; "suzuki"]%string -> expansion_order < 1 ->
      init = (Err (AquaError ("Expansion order value " +:+
                              pretty expansion_order +:+
                              ". Minimum value allowed is 1")), w)).
Proof.
  intros init; subst init.
  split; [| split; [| split]]; intros;
    apply init_validation_error; unfold _validate_eoh.
  - by destruct (Z.ltb_spec evo_time 0); [| lia].
  - destruct (Z.ltb_spec evo_time 0); [lia |].
    by destruct (Z.ltb_spec num_time_slices 0); [| lia].
  - destruct (Z.ltb_spec evo_time 0); [lia |].
    destruct (Z.ltb_spec num_time_slices 0); [lia |].
    by rewrite bool_decide_false.
  - destruct (Z.ltb_spec evo_time 0); [lia |].
    destruct (Z.ltb_spec num_time_slices 0); [lia |].
    rewrite bool_decide_true by assumption.
    by destruct (Z.ltb_spec expansion_order 1); [| lia].
Qed.

Lemma alloc_circuit_fresh gates : fresh_circuit (alloc_circuit gates) gates.
Proof.
  intros h. eexists _, _. split; [reflexivity |]. simpl. split; [| done].
  apply not_elem_of_dom, is_fresh.
Qed.

Ltac split_run H := repeat (case_inner_in H; cbn in H; try discriminate).

(** C2 (counterexample): when the initial state hands out the same circuit
    object on every call, [construct_circuit] extends that object in place:
    both calls return the same object, which holds the evolution fragment
    once after the first call and twice after the second. *)
Lemma C2_shared_circuit_object_grows :
  match __init__ shared_state_collab 1 0 1 1 1 "trotter" 1 world0 with
  | (Ok self, w1) =>
      match construct_circuit shared_state_collab self w1 with
      | (Ok qc1, w2) =>
          match construct_circuit shared_state_collab self w2 with
          | (Ok qc2, w3) =>
              qc1 = qc2 /\ circuit_data (w_heap w2) qc1 = [1%nat]
              /\ circuit_data (w_heap w3) qc2 = [1%nat; 1%nat]
          | _ => False
          end
      | _ => False
      end
  | _ => False
  end.
Proof. vm_compute. repeat split. Qed.

(** C2 (amended): [construct_circuit] asks the operator for its qubit count
    [n], asks the initial state for its circuit over [QuantumRegister(n, 'q')],
    asks the evolution operator for its fragment over the same register with
    exactly the instance's [evo_time], [num_time_slices], [expansion_mode]
    and [expansion_order], extends the initial state's circuit object in
    place with the fragment and returns that object; nothing else changes.
    When the initial state and the evolution return new objects, every call
    returns a circuit with the initial state's gates followed by the
    fragment's. *)
Theorem C2_construct_circuit_in_place :
  (forall (C : collab) (self : EOH) (w : world) (qc : nat) (w' : world),
     construct_circuit C self w = (Ok qc, w') ->
     exists n h1 h2 frag h3,
       let qr := mkQuantumRegister n "q" in
       op_num_qubits C (_operator self) (w_heap w) = (Ok n, h1)
       /\ state_construct_circuit C (_initial_state self) "circuit" qr h1
          = (Ok qc, h2)
       /\ op_evolve C (_evo_operator self) (_evo_time self)
            (_num_time_slices self) qr (_expansion_mode self)
            (_expansion_order self) h2 = (Ok frag, h3)
       /\ w' = mkWorld (heap_iadd h3 qc frag)
                 (w_trace w ++
                  [ENumQubits (_operator self);
                   EInitialState (_initial_state self) "circuit" qr;
                   EEvolve (_evo_operator self) (_evo_time self)
                     (_num_time_slices self) qr (_expansion_mode self)
                     (_expansion_order self)])
                 (w_dicts w) (w_next_dict w))
  /\ (forall (C : collab) (self : EOH) (n : nat) (P F : list nat),
        let qr := mkQuantumRegister n "q" in
        (forall h, exists h', op_num_qubits C (_operator self) h = (Ok n, h')) ->
        fresh_circuit (state_construct_circuit C (_initial_state self)
                         "circuit" qr) P ->
        fresh_circuit (op_evolve C (_evo_operator self) (_evo_time self)
                         (_num_time_slices self) qr (_expansion_mode self)
                         (_expansion_order self)) F ->
        forall w, exists qc w', construct_circuit C self w = (Ok qc, w')
                            /\ circuit_data (w_heap w') qc = P ++ F).
Proof.
  split.
  - intros C self w qc w' H. unfold_eoh. split_run H.
    injection H as <- <-. do 5 eexists.
    split; [reflexivity |]. split; [eassumption |]. split; [eassumption |].
    f_equal. by rewrite <- !app_assoc.
  - intros C self n P F qr Hn HP HF w. subst qr.
    unfold construct_circuit, bind, call, circuit_iadd, ret. cbv zeta.
    destruct (Hn (w_heap w)) as [h1 E1]. rewrite E1. cbn [w_heap].
    destruct (HP h1) as [r [h2 [E2 [Hr Hc2]]]]. rewrite E2. cbn [w_heap].
    destruct (HF h2) as [f [h3 [E3 [Hf Hc3]]]]. rewrite E3. cbn [w_heap].
    eexists _, _. split; [reflexivity |].
    assert (Hfr : f <> r).
    { intros ->. rewrite Hc2, lookup_insert_eq in Hf. discriminate. }
    unfold heap_iadd, circuit_data. cbn [w_heap h_circs].
    rewrite lookup_insert_eq, Hc3, (lookup_insert_ne (h_circs h2) f r F),
      (lookup_insert_eq (h_circs h2) f F), Hc2, lookup_insert_eq by done.
    reflexivity.
Qed.

(** C2 witness: the default instance over [demo_collab]. *)
Lemma C2_construct_circuit_in_place_witness :
  exists qc w', construct_circuit demo_collab demo_eoh world0 = (Ok qc, w')
                /\ circuit_data (w_heap w') qc = [] ++ [1%nat].
Proof.
  apply (proj2 C2_construct_circuit_in_place demo_collab demo_eoh 1%nat [] [1%nat]).
  - intros h. exists h. reflexivity.
  - apply alloc_circuit_fresh.
  - apply alloc_circuit_fresh.
Defined.

(** C3: a successful [_run] calls, in this order and once each, the
    operator's qubit count, the initial state, the evolution, the operator's
    evaluation-circuit construction on the built circuit, the backend's
    [execute] (its only call into the backend) and the operator's
    [evaluate_with_result] on the backend's result; it then writes the pair
    that evaluation returned under ['avg'] and ['std_dev'] into [self._ret]
    and returns that dict.  A [_run] that raises leaves every result dict as
    it was. *)
Theorem C3_run_sequence (C : collab) (qi : nat) (self : EOH) (w : world) :
  (forall r w', _run C qi self w = (Ok r, w') ->
     exists n qc frag wrapped res avg std_dev h1 h2 h3 h4 h5 h6,
       let qr := mkQuantumRegister n "q" in
       let sv := is_statevector C qi in
       op_num_qubits C (_operator self) (w_heap w) = (Ok n, h1)
       /\ state_construct_circuit C (_initial_state self) "circuit" qr h1
          = (Ok qc, h2)
       /\ op_evolve C (_evo_operator self) (_evo_time self)
            (_num_time_slices self) qr (_expansion_mode self)
            (_expansion_order self) h2 = (Ok frag, h3)
       /\ op_construct_evaluation_circuit C (_operator self) qc sv
            (heap_iadd h3 qc frag) = (Ok wrapped, h4)
       /\ qi_execute C qi wrapped h4 = (Ok res, h5)
       /\ op_evaluate_with_result C (_operator self) res sv h5
          = (Ok (avg, std_dev), h6)
       /\ r = _ret self
       /\ w' = mkWorld h6
                 (w_trace w ++
                  [ENumQubits (_operator self);
                   EInitialState (_initial_state self) "circuit" qr;
                   EEvolve (_evo_operator self) (_evo_time self)
                     (_num_time_slices self) qr (_expansion_mode self)
                     (_expansion_order self);
                   EEvalCircuit (_operator self) qc sv;
                   EExecute qi wrapped;
                   EEvaluate (_operator self) res sv])
                 (<[_ret self := <["std_dev" := std_dev]>
                                   (<["avg" := avg]>
                                      (default ∅ (w_dicts w !! _ret self)))]>
                    (w_dicts w))
                 (w_next_dict w))
  /\ (forall e w', _run C qi self w = (Err e, w') ->
        w_dicts w' = w_dicts w /\ w_next_dict w' = w_next_dict w).
Proof.
  split.
  - intros r w' H. unfold_eoh. split_run H.
    match goal with p : (Z * Z)%type |- _ => destruct p end.
    injection H as <- <-. do 13 eexists. cbv zeta.
    do 6 (split; [first [eassumption | reflexivity] |]). split; [reflexivity |].
    f_equal. by rewrite <- !app_assoc.
  - intros e w' H. unfold_eoh. split_run H; injection H as <- <-; done.
Qed.

(** C4: every evaluation-circuit construction and every result evaluation
    that [_run] asks of the operator carries the backend's declared mode
    [is_statevector]; a successful run asks for both. *)
Theorem C4_mode_flag_matches_backend (C : collab) (qi : nat) (self : EOH)
    (w : world) :
  let sv := is_statevector C qi in
  exists evs,
    w_trace (snd (_run C qi self w)) = w_trace w ++ evs
    /\ forallb (mode_ok sv) evs = true
    /\ (forall r, fst (_run C qi self w) = Ok r ->
          (exists qc, In (EEvalCircuit (_operator self) qc sv) evs)
          /\ (exists res, In (EEvaluate (_operator self) res sv) evs)).
Proof.
  intros sv. unfold sv. unfold_eoh.
  repeat (case_inner; cbn); eexists;
    (split; [by rewrite <- ?app_assoc |]);
    (split; [destruct (is_statevector C qi); reflexivity |]);
    intros rr Hr; try discriminate;
    split; eexists; simpl; tauto.
Qed.

(** C7: when [construct_circuit] or [_run] raises [e], [e] is exactly the
    exception the last collaborator called raised, nothing was called after
    it and nothing was raised and swallowed before it; the result dicts are
    untouched.  When [__init__] raises, the exception is either the failed
    validation's (with the world untouched) or one raised by an operator
    conversion. *)
Theorem C7_collaborator_failures_propagate :
  (forall (C : collab) (self : EOH) (w : world) (e : exn) (w' : world),
     construct_circuit C self w = (Err e, w') ->
     (exists evs, w_trace w' = w_trace w ++ evs
                  /\ ends_in_collaborator_raise evs e)
     /\ w_dicts w' = w_dicts w)
  /\ (forall (C : collab) (qi : nat) (self : EOH) (w : world) (e : exn)
        (w' : world),
        _run C qi self w = (Err e, w') ->
        (exists evs, w_trace w' = w_trace w ++ evs
                     /\ ends_in_collaborator_raise evs e)
        /\ w_dicts w' = w_dicts w)
  /\ (forall (C : collab) (operator initial_state evo_operator : nat)
        (evo_time num_time_slices : Z) (expansion_mode : string)
        (expansion_order : Z) (w : world) (e : exn) (w' : world),
        __init__ C operator initial_state evo_operator evo_time
          num_time_slices expansion_mode expansion_order w = (Err e, w') ->
        (_validate_eoh evo_time num_time_slices expansion_mode
           expansion_order = Err e /\ w' = w)
        \/ (exists evs, w_trace w' = w_trace w ++ evs
                        /\ ends_in_collaborator_raise evs e)).
Proof.
  split; [| split].
  - intros C self w e w' H. unfold_eoh. split_run H;
      injection H as <- <-; split; try reflexivity;
      eexists; (split; [by rewrite <- ?app_assoc |]); simpl; auto.
  - intros C qi self w e w' H. unfold_eoh. split_run H;
      injection H as <- <-; split; try reflexivity;
      eexists; (split; [by rewrite <- ?app_assoc |]); simpl; auto.
  - intros C operator initial_state evo_operator evo_time num_time_slices
      expansion_mode expansion_order w e w' H.
    unfold __init__, bind, lift_result, call, new_dict, ret in H.
    destruct (_validate_eoh evo_time num_time_slices expansion_mode
                expansion_order) as [[] | e0] eqn:Ev.
    + right. split_run H; injection H as <- <-;
        eexists; (split; [by rewrite <- ?app_assoc |]); simpl; auto.
    + left. injection H as <- <-. auto.
Qed.

(** C6: a successful [__init__] converts the observable operator and then
    the evolution operator, once each and before anything else is called,
    and keeps the converted operators; [construct_circuit] and [_run] never
    convert again; converting an operator already in canonical form returns
    it unchanged and does not raise. *)
Theorem C6_operators_canonicalized_once :
  (forall (C : collab) (operator initial_state evo_operator : nat)
     (evo_time num_time_slices : Z) (expansion_mode : string)
     (expansion_order : Z) (w : world) (self : EOH) (w' : world),
     __init__ C operator initial_state evo_operator evo_time num_time_slices
       expansion_mode expansion_order w = (Ok self, w') ->
     w_trace w' = w_trace w ++ [EConvert operator; EConvert evo_operator]
     /\ exists h1,
          to_weighted_pauli_operator C operator (w_heap w)
            = (Ok (_operator self), h1)
          /\ to_weighted_pauli_operator C evo_operator h1
            = (Ok (_evo_operator self), w_heap w'))
  /\ (forall (C : collab) (self : EOH) (w : world),
        exists evs, w_trace (snd (construct_circuit C self w)) = w_trace w ++ evs
                    /\ forall o, ~ In (EConvert o) evs)
  /\ (forall (C : collab) (qi : nat) (self : EOH) (w : world),
        exists evs, w_trace (snd (_run C qi self w)) = w_trace w ++ evs
                    /\ forall o, ~ In (EConvert o) evs)
  /\ (forall (C : collab) (operator : nat), is_weighted_pauli C operator = true ->
        forall h, to_weighted_pauli_operator C operator h = (Ok operator, h)).
Proof.
  split; [| split; [| split]].
  - intros C operator initial_state evo_operator evo_time num_time_slices
      expansion_mode expansion_order w self w' H.
    unfold __init__, bind, lift_result, call, new_dict, ret in H.
    destruct (_validate_eoh evo_time num_time_slices expansion_mode
                expansion_order) as [[] | e0]; [| discriminate].
    split_run H. injection H as <- <-. cbn.
    split; [by rewrite <- app_assoc |]. eauto.
  - intros C self w. unfold_eoh.
    repeat (case_inner; cbn); eexists;
      (split; [by rewrite <- ?app_assoc |]); simpl; intros o; intuition discriminate.
  - intros C qi self w. unfold_eoh.
    repeat (case_inner; cbn); eexists;
      (split; [by rewrite <- ?app_assoc |]); simpl; intros o; intuition discriminate.
  - intros C operator Hc h. unfold to_weighted_pauli_operator. by rewrite Hc.
Qed.

Lemma run_evaluate_keeps_dicts C qi self w x w1 :
  _run_evaluate C qi self w = (x, w1) ->
  w_dicts w1 = w_dicts w /\ w_next_dict w1 = w_next_dict w.
Proof.
  intros H. unfold _run_evaluate, construct_circuit, bind, call, circuit_iadd,
    ret in H. cbn in H. split_run H; injection H as _ <-; done.
Qed.

(** C8 (counterexample): two runs of one instance return the same dict
    object; after the second run the summary the first run returned shows
    the second run's mean (7), not its own (4). *)
Lemma C8_run_returns_same_dict :
  match __init__ demo_collab 1 0 1 1 1 "trotter" 1 world0 with
  | (Ok self, w1) =>
      match _run demo_collab 1 self w1 with
      | (Ok r1, w2) =>
          match _run demo_collab 1 self w2 with
          | (Ok r2, w3) =>
              r1 = r2
              /\ (w_dicts w2 !! r1) ≫= (.!! "avg"%string) = Some 4
              /\ (w_dicts w3 !! r1) ≫= (.!! "avg"%string) = Some 7
          | _ => False
          end
      | _ => False
      end
  | _ => False
  end.
Proof. vm_compute. repeat split. Qed.

(** C8 (amended): construction creates the instance's result dict empty;
    each run writes that run's [(avg, std_dev)], the pair the evaluation
    returned, into it, after which it holds exactly these two entries (no
    earlier entry survives or is merged), and returns that same dict object,
    so the stored summary is the returned one; no other dict changes. *)
Theorem C8_run_overwrites_result_dict :
  (forall (C : collab) (operator initial_state evo_operator : nat)
     (evo_time num_time_slices : Z) (expansion_mode : string)
     (expansion_order : Z) (w : world) (self : EOH) (w' : world),
     __init__ C operator initial_state evo_operator evo_time num_time_slices
       expansion_mode expansion_order w = (Ok self, w') ->
     w_dicts w' !! _ret self = Some ∅)
  /\ (forall (C : collab) (qi : nat) (self : EOH) (w : world) (r : nat)
        (w' : world),
        ret_keys_ok (w_dicts w) (_ret self) ->
        _run C qi self w = (Ok r, w') ->
        r = _ret self
        /\ exists avg std_dev w1,
             _run_evaluate C qi self w = (Ok (avg, std_dev), w1)
             /\ w_dicts w' !! r
                = Some (<["std_dev" := std_dev]> (<["avg" := avg]> ∅))
             /\ forall r', r' <> r -> w_dicts w' !! r' = w_dicts w !! r').
Proof.
  split.
  - intros C operator initial_state evo_operator evo_time num_time_slices
      expansion_mode expansion_order w self w' H.
    unfold __init__, bind, lift_result, call, new_dict, ret in H.
    destruct (_validate_eoh evo_time num_time_slices expansion_mode
                expansion_order) as [[] | e0]; [| discriminate].
    split_run H. injection H as <- <-. cbn. by rewrite lookup_insert_eq.
  - intros C qi self w r w' Hinv H.
    unfold _run, bind, store_ret, ret in H.
    destruct (_run_evaluate C qi self w) as [[[avg std_dev] | e] w1] eqn:E;
      [| discriminate].
    apply run_evaluate_keeps_dicts in E as Hd. destruct Hd as [Hd _].
    cbn in H. injection H as <- <-.
    split; [reflexivity |]. exists avg, std_dev, w1.
    split; [reflexivity |]. cbn. rewrite Hd. split.
    + rewrite lookup_insert_eq. f_equal. apply map_eq. intros k.
      destruct (decide (k = "std_dev"%string)) as [-> | Hs].
      { by rewrite !lookup_insert_eq. }
      rewrite !(lookup_insert_ne _ "std_dev"%string k) by congruence.
      destruct (decide (k = "avg"%string)) as [-> | Ha].
      { by rewrite !lookup_insert_eq. }
      rewrite !(lookup_insert_ne _ "avg"%string k) by congruence.
      rewrite lookup_empty.
      destruct (w_dicts w !! _ret self) as [d |] eqn:Ed; simpl;
        [| apply lookup_empty].
      destruct (d !! k) as [v |] eqn:Ek; [| done].
      destruct (Hinv d k v Ed Ek); congruence.
    + intros r' Hr'. by rewrite lookup_insert_ne by congruence.
Qed.

(** C9: the qubit count of the evolution operator is never asked for nor
    compared: [__init__] does not ask any operator for its qubit count,
    [construct_circuit] asks only the observable operator, and replacing the
    qubit counts every other operator reports (mismatched or not) changes
    nothing in [construct_circuit] or [_run]. *)
Theorem C9_qubit_counts_not_compared :
  (forall (C : collab) (f : nat -> CM nat) (self : EOH) (w : world),
     f (_operator self) = op_num_qubits C (_operator self) ->
     construct_circuit (with_num_qubits C f) self w = construct_circuit C self w)
  /\ (forall (C : collab) (f : nat -> CM nat) (qi : nat) (self : EOH)
        (w : world),
        f (_operator self) = op_num_qubits C (_operator self) ->
        _run (with_num_qubits C f) qi self w = _run C qi self w)
  /\ (forall (C : collab) (f : nat -> CM nat)
        (operator initial_state evo_operator : nat)
        (evo_time num_time_slices : Z) (expansion_mode : string)
        (expansion_order : Z) (w : world),
        __init__ (with_num_qubits C f) operator initial_state evo_operator
          evo_time num_time_slices expansion_mode expansion_order w
        = __init__ C operator initial_state evo_operator evo_time
            num_time_slices expansion_mode expansion_order w)
  /\ (forall (C : collab) (self : EOH) (w : world),
        exists evs, w_trace (snd (construct_circuit C self w)) = w_trace w ++ evs
                    /\ forall o, In (ENumQubits o) evs -> o = _operator self).
Proof.
  assert (Hcc : forall (C : collab) (f : nat -> CM nat) (self : EOH) (w : world),
            f (_operator self) = op_num_qubits C (_operator self) ->
            construct_circuit (with_num_qubits C f) self w
            = construct_circuit C self w).
  { intros C f self w Hf. unfold construct_circuit, bind, call. cbn.
    by rewrite Hf. }
  split; [exact Hcc | split; [| split]].
  - intros C f qi self w Hf. unfold _run, _run_evaluate, bind at 1 2.
    rewrite (Hcc C f self w Hf). reflexivity.
  - reflexivity.
  - intros C self w. unfold_eoh.
    repeat (case_inner; cbn); eexists;
      (split; [by rewrite <- ?app_assoc |]); simpl; intros o; intuition congruence.
Qed.

(** C9 witness: with mismatched qubit counts, and whatever count the
    evolution operator reports, [construct_circuit] succeeds alike. *)
Lemma C9_qubit_counts_not_compared_witness :
  construct_circuit
    (with_num_qubits demo_collab
       (fun o h => if Nat.eqb o 1 then (Ok 1%nat, h) else (Ok 7%nat, h)))
    mismatched_eoh world0
  = construct_circuit demo_collab mismatched_eoh world0
  /\ exists qc w', construct_circuit demo_collab mismatched_eoh world0 = (Ok qc, w').
Proof.
  split.
  - apply (proj1 C9_qubit_counts_not_compared). reflexivity.
  - vm_compute. eexists _, _. reflexivity.
Defined.

(** C10: construction neither inspects nor calls the initial state, the
    backend or any other method than the operator conversion: two
    collaborator sets that convert alike construct alike; with valid
    parameters and successful conversions construction succeeds for every
    initial state, which it stores as given; an initial state whose
    [construct_circuit] raises makes the first [construct_circuit] and the
    first [_run] raise that exception. *)
Theorem C10_initial_state_not_checked_at_construction :
  (forall (C C' : collab) (operator initial_state evo_operator : nat)
     (evo_time num_time_slices : Z) (expansion_mode : string)
     (expansion_order : Z) (w : world),
     agree_on_conversion C C' ->
     __init__ C operator initial_state evo_operator evo_time num_time_slices
       expansion_mode expansion_order w
     = __init__ C' operator initial_state evo_operator evo_time
         num_time_slices expansion_mode expansion_order w)
  /\ (forall (C : collab) (operator initial_state evo_operator : nat)
        (evo_time num_time_slices : Z) (expansion_mode : string)
        (expansion_order : Z) (w : world),
        0 <= evo_time -> 0 <= num_time_slices ->
        expansion_mode ∈ ["trotter"; "suzuki"]%string -> 1 <= expansion_order ->
        (forall h, exists r h', to_weighted_pauli_operator C operator h = (Ok r, h')) ->
        (forall h, exists r h',
           to_weighted_pauli_operator C evo_operator h = (Ok r, h')) ->
        exists self w',
          __init__ C operator initial_state evo_operator evo_time
            num_time_slices expansion_mode expansion_order w = (Ok self, w')
          /\ _initial_state self = initial_state
          /\ w_trace w' = w_trace w ++ [EConvert operator; EConvert evo_operator])
  /\ (forall (C : collab) (self : EOH) (e : exn),
        (forall h, exists n h', op_num_qubits C (_operator self) h = (Ok n, h')) ->
        (forall mode qr h, exists h',
           state_construct_circuit C (_initial_state self) mode qr h = (Err e, h')) ->
        forall w,
          (exists w', construct_circuit C self w = (Err e, w'))
          /\ forall qi, exists w', _run C qi self w = (Err e, w')).
Proof.
  split; [| split].
  - intros C C' operator initial_state evo_operator evo_time num_time_slices
      expansion_mode expansion_order w [H1 H2].
    unfold __init__, to_weighted_pauli_operator. by rewrite H1, H2.
  - intros C operator initial_state evo_operator evo_time num_time_slices
      expansion_mode expansion_order w Ht Hs Hm Ho Hop Hevo.
    unfold __init__, bind, lift_result, call, new_dict, ret.
    rewrite validate_eoh_ok by assumption.
    destruct (Hop (w_heap w)) as [r [h' Hr]]. rewrite Hr.
    cbn [w_heap w_trace w_dicts w_next_dict].
    destruct (Hevo h') as [r2 [h2 Hr2]]. rewrite Hr2.
    eexists _, _. split; [reflexivity |]. split; [reflexivity |].
    cbn. by rewrite <- app_assoc.
  - intros C self e Hn Hp w.
    destruct (Hn (w_heap w)) as [n [h1 E1]].
    destruct (Hp "circuit"%string (mkQuantumRegister n "q") h1) as [h2 E2].
    assert (Hcc : exists w', construct_circuit C self w = (Err e, w')).
    { unfold construct_circuit, bind, call. rewrite E1.
      cbn [w_heap]. rewrite E2. eauto. }
    split; [exact Hcc |]. intros qi.
    destruct Hcc as [w' Hcc].
    unfold _run, _run_evaluate, bind at 1 2. rewrite Hcc. eauto.
Qed.

(** C1 witness: the boundary values [evo_time = 0], [num_time_slices = 0],
    ["suzuki"], [expansion_order = 1] construct. *)
Lemma C1_construction_validation_witness :
  exists self w',
    __init__ demo_collab 1 0 1 0 0 "suzuki" 1 world0 = (Ok self, w').
Proof.
  apply (proj2 (proj2 (C1_construction_validation demo_collab 1 0 1 0 0
                          "suzuki" 1 world0))).
  - lia.
  - lia.
  - set_solver.
  - lia.
  - intros h. exists 1%nat, h. reflexivity.
  - intros h. exists 1%nat, h. reflexivity.
Defined.

(** C10 witness: with [None] as the initial state, construction succeeds and
    the first [construct_circuit] raises the [AttributeError]. *)
Lemma C10_initial_state_not_checked_at_construction_witness :
  (exists self w',
     __init__ none_state_collab 1 0 1 1 1 "trotter" 1 world0 = (Ok self, w')
     /\ _initial_state self = 0%nat
     /\ w_trace w' = w_trace world0 ++ [EConvert 1; EConvert 1])
  /\ (exists w', construct_circuit none_state_collab demo_eoh world0
                 = (Err none_attribute_error, w')).
Proof.
  split.
  - apply (proj1 (proj2 C10_initial_state_not_checked_at_construction)).
    + lia.
    + lia.
    + set_solver.
    + lia.
    + intros h. exists 1%nat, h. reflexivity.
    + intros h. exists 1%nat, h. reflexivity.
  - apply (proj2 (proj2 C10_initial_state_not_checked_at_construction)
             none_state_collab demo_eoh none_attribute_error).
    + intros h. exists 1%nat, h. reflexivity.
    + intros mode qr h. exists h. reflexivity.
Defined.

(** ** Further properties of [EOH] *)

(** The shape of a successful construction: the result dict is the next
    one, and the world's dict counter moves on by one. *)
Lemma init_ok_shape C operator initial_state evo_operator evo_time
    num_time_slices expansion_mode expansion_order w self w' :
  __init__ C operator initial_state evo_operator evo_time num_time_slices
    expansion_mode expansion_order w = (Ok self, w') ->
  self = mkEOH (_operator self) initial_state (_evo_operator self) evo_time
           num_time_slices expansion_mode expansion_order (w_next_dict w)
  /\ _validate_eoh evo_time num_time_slices expansion_mode expansion_order = Ok tt
  /\ w_next_dict w' = S (w_next_dict w)
  /\ w_dicts w' = <[w_next_dict w := ∅]> (w_dicts w).
Proof.
  intros H. unfold __init__, bind, lift_result, call, new_dict, ret in H.
  destruct (_validate_eoh evo_time num_time_slices expansion_mode
              expansion_order) as [[] | e0] eqn:Ev; [| discriminate].
  split_run H. injection H as <- <-. cbn. auto.
Qed.

(** X1: a constructed instance keeps the initial state and the four
    evolution parameters exactly as given, and these parameters pass
    [_validate_eoh]: every instance's configuration is a valid one. *)
Theorem X1_init_stores_valid_parameters (C : collab)
    (operator initial_state evo_operator : nat)
    (evo_time num_time_slices : Z) (expansion_mode : string)
    (expansion_order : Z) (w : world) (self : EOH) (w' : world)
    (H : __init__ C operator initial_state evo_operator evo_time
           num_time_slices expansion_mode expansion_order w = (Ok self, w')) :
  _initial_state self = initial_state
  /\ _evo_time self = evo_time /\ _num_time_slices self = num_time_slices
  /\ _expansion_mode self = expansion_mode
  /\ _expansion_order self = expansion_order
  /\ _validate_eoh (_evo_time self) (_num_time_slices self)
       (_expansion_mode self) (_expansion_order self) = Ok tt.
Proof.
  apply init_ok_shape in H as [Hs [Hv _]].
  rewrite Hs. cbn. auto 6.
Qed.

Lemma X1_init_stores_valid_parameters_witness :
  match __init__ demo_collab 1 0 103 2 3 "suzuki" 4 world0 with
  | (Ok self, w') =>
      _initial_state self = 0%nat
      /\ _evo_time self = 2 /\ _num_time_slices self = 3
      /\ _expansion_mode self = "suzuki"%string
      /\ _expansion_order self = 4
      /\ _validate_eoh (_evo_time self) (_num_time_slices self)
           (_expansion_mode self) (_expansion_order self) = Ok tt
  | _ => False
  end.
Proof.
  destruct (__init__ demo_collab 1 0 103 2 3 "suzuki" 4 world0)
    as [[self | e] w'] eqn:E; [| vm_compute in E; discriminate].
  exact (X1_init_stores_valid_parameters demo_collab 1 0 103 2 3 "suzuki" 4
           world0 self w' E).
Defined.

(** X2: in [qc += evo_operator.evolve(...)] the evolution runs before the
    in-place extension: when [evolve] raises, [construct_circuit] raises the
    same exception and leaves the heap exactly as [evolve] left it, so the
    initial state's circuit object is not extended. *)
Theorem X2_evolve_error_leaves_circuit (C : collab) (self : EOH) (w : world)
    (n : nat) (qc : nat) (e : exn) (h1 h2 h3 : heap)
    (Hn : op_num_qubits C (_operator self) (w_heap w) = (Ok n, h1))
    (Hp : state_construct_circuit C (_initial_state self) "circuit"
            (mkQuantumRegister n "q") h1 = (Ok qc, h2))
    (He : op_evolve C (_evo_operator self) (_evo_time self)
            (_num_time_slices self) (mkQuantumRegister n "q")
            (_expansion_mode self) (_expansion_order self) h2 = (Err e, h3)) :
  exists w', construct_circuit C self w = (Err e, w') /\ w_heap w' = h3.
Proof.
  unfold construct_circuit, bind, call. rewrite Hn. cbn [w_heap].
  rewrite Hp. cbn [w_heap]. rewrite He. eauto.
Qed.

Lemma X2_evolve_error_leaves_circuit_witness :
  exists w', construct_circuit evolve_error_collab demo_eoh world0
             = (Err (AquaError "evolve failed"), w')
             /\ w_heap w' = mkHeap (<[1%nat := []]> (<[0%nat := []]> ∅)) 2.
Proof.
  apply (X2_evolve_error_leaves_circuit evolve_error_collab demo_eoh world0
           1 1 (AquaError "evolve failed") (w_heap world0)
           (mkHeap (<[1%nat := []]> (<[0%nat := []]> ∅)) 2)
           (mkHeap (<[1%nat := []]> (<[0%nat := []]> ∅)) 2)).
  - reflexivity.
  - vm_compute. reflexivity.
  - reflexivity.
Defined.

Lemma run_keeps_other_dicts C qi self w x w' r' :
  _run C qi self w = (x, w') -> r' <> _ret self ->
  w_dicts w' !! r' = w_dicts w !! r' /\ w_next_dict w' = w_next_dict w.
Proof.
  intros H Hr. unfold _run, bind, store_ret, ret in H.
  destruct (_run_evaluate C qi self w) as [[p | e] w1] eqn:E;
    apply run_evaluate_keeps_dicts in E as [Hd Hn]; cbn in H;
    injection H as _ <-; cbn.
  - rewrite lookup_insert_ne by congruence. by rewrite Hd.
  - by rewrite Hd.
Qed.

(** X3: two instances constructed one after the other get different result
    dicts, so a run of the second one, successful or not, leaves the first
    one's result summary as it was. *)
Theorem X3_instances_have_separate_results (C C' C'' : collab)
    (op1 p1 evo1 op2 p2 evo2 : nat) (t1 s1 o1 t2 s2 o2 : Z)
    (m1 m2 : string) (w w1 w2 : world) (self1 self2 : EOH)
    (H1 : __init__ C op1 p1 evo1 t1 s1 m1 o1 w = (Ok self1, w1))
    (H2 : __init__ C' op2 p2 evo2 t2 s2 m2 o2 w1 = (Ok self2, w2)) :
  _ret self1 <> _ret self2
  /\ forall qi w3 x w4, _run C'' qi self2 w3 = (x, w4) ->
       w_dicts w4 !! _ret self1 = w_dicts w3 !! _ret self1.
Proof.
  apply init_ok_shape in H1 as [Hs1 [_ [Hn1 _]]].
  apply init_ok_shape in H2 as [Hs2 _].
  assert (Hne : _ret self1 <> _ret self2).
  { rewrite Hs1, Hs2. cbn. rewrite Hn1. lia. }
  split; [exact Hne |].
  intros qi w3 x w4 Hr. eapply run_keeps_other_dicts; eauto.
Qed.

Lemma X3_instances_have_separate_results_witness :
  match __init__ demo_collab 1 0 1 1 1 "trotter" 1 world0 with
  | (Ok self1, w1) =>
      match __init__ demo_collab 2 0 2 1 1 "suzuki" 2 w1 with
      | (Ok self2, w2) =>
          _ret self1 <> _ret self2
          /\ forall qi w3 x w4, _run demo_collab qi self2 w3 = (x, w4) ->
               w_dicts w4 !! _ret self1 = w_dicts w3 !! _ret self1
      | _ => False
      end
  | _ => False
  end.
Proof.
  destruct (__init__ demo_collab 1 0 1 1 1 "trotter" 1 world0)
    as [[self1 | e1] w1] eqn:E1; [| vm_compute in E1; discriminate].
  destruct (__init__ demo_collab 2 0 2 1 1 "suzuki" 2 w1)
    as [[self2 | e2] w2] eqn:E2.
  - exact (X3_instances_have_separate_results demo_collab demo_collab
             demo_collab 1 0 1 2 0 2 1 1 1 1 1 2 "trotter" "suzuki"
             world0 w1 w2 self1 self2 E1 E2).
  - vm_compute in E1. injection E1 as <- <-. vm_compute in E2. discriminate.
Defined.

(** X4: a run that raises after a successful one leaves the summary of the
    successful run in the result dict: [self._ret] always holds the pair of
    the last run that completed. *)
Theorem X4_failed_run_keeps_last_summary (C C' : collab) (qi qi' : nat)
    (self : EOH) (w w1 w2 : world) (r : nat) (e : exn)
    (H1 : _run C qi self w = (Ok r, w1))
    (H2 : _run C' qi' self w1 = (Err e, w2)) :
  exists avg std_dev w0,
    _run_evaluate C qi self w = (Ok (avg, std_dev), w0)
    /\ w_dicts w2 !! r
       = Some (<["std_dev" := std_dev]>
                 (<["avg" := avg]> (default ∅ (w_dicts w !! r)))).
Proof.
  unfold _run, bind, store_ret, ret in H1.
  destruct (_run_evaluate C qi self w) as [[[avg std_dev] | e0] w0] eqn:E;
    [| discriminate].
  apply run_evaluate_keeps_dicts in E as Hd. destruct Hd as [Hd _].
  cbn in H1. injection H1 as <- <-.
  unfold _run, bind, store_ret, ret in H2.
  destruct (_run_evaluate C' qi' self _) as [[p | e1] w3] eqn:E';
    [discriminate |].
  apply run_evaluate_keeps_dicts in E' as [Hd' _].
  injection H2 as _ <-.
  exists avg, std_dev, w0. split; [reflexivity |].
  rewrite Hd'. cbn. rewrite Hd. apply lookup_insert_eq.
Qed.

Lemma X4_failed_run_keeps_last_summary_witness :
  match __init__ demo_collab 1 0 1 1 1 "trotter" 1 world0 with
  | (Ok self, w1) =>
      match _run demo_collab 1 self w1 with
      | (Ok r, w2) =>
          match _run evolve_error_collab 1 self w2 with
          | (Err e, w3) =>
              exists avg std_dev w0,
                _run_evaluate demo_collab 1 self w1 = (Ok (avg, std_dev), w0)
                /\ w_dicts w3 !! r
                   = Some (<["std_dev" := std_dev]>
                             (<["avg" := avg]> (default ∅ (w_dicts w1 !! r))))
          | _ => False
          end
      | _ => False
      end
  | _ => False
  end.
Proof.
  destruct (__init__ demo_collab 1 0 1 1 1 "trotter" 1 world0)
    as [[self | e1] w1] eqn:E1; [| vm_compute in E1; discriminate].
  destruct (_run demo_collab 1 self w1) as [[r | e2] w2] eqn:E2;
    [| vm_compute in E1; injection E1 as <- <-; vm_compute in E2; discriminate].
  destruct (_run evolve_error_collab 1 self w2) as [[r3 | e3] w3] eqn:E3.
  - vm_compute in E1. injection E1 as <- <-. vm_compute in E2.
    injection E2 as <- <-. vm_compute in E3. discriminate.
  - exact (X4_failed_run_keeps_last_summary demo_collab evolve_error_collab
             1 1 self w1 w2 w3 r e3 E2 E3).
Defined.
